(** * terraform-aws-lab: the info server of [main.py]

    A shallow embedding of the two FastAPI handlers of [main.py], [home]
    (GET /) and [health] (GET /api/health), and of the Python operations
    they are built from: [str.split], list indexing, [str.strip], the
    [try]/[except] block around the EC2 metadata lookup and the f-string that
    renders the page.

    Python strings are sequences of Unicode code points, so a [str] is a
    list of code points here.  The operating system is a [world]: the
    hostname [socket.gethostname] returns, and what [os.popen] does for each
    command line. *)

From Stdlib Require Import String Ascii List NArith ZArith Bool Lia.
Import ListNotations.

Set Implicit Arguments.

(** ** Python values *)

Module Py.

(** A code point, and a Python [str]. *)
Definition char := N.
Definition str := list char.

Definition ch (a : ascii) : char := N_of_ascii a.
Arguments ch a%_char.

(** An ASCII literal of the source, as a [str]. *)
Definition lit (s : string) : str := map N_of_ascii (list_ascii_of_string s).
Arguments lit s%_string.

(** The double quote. *)
Definition dq : str := [34%N].

Fixpoint str_eqb (a b : str) : bool :=
  match a, b with
  | [], [] => true
  | x :: a', y :: b' => N.eqb x y && str_eqb a' b'
  | _, _ => false
  end.

(** Exceptions.  [BaseException] stands for every other class, named. *)
Inductive exn :=
| IndexError
| ValueError
| NameError
| SyntaxError
| OSError
| UnicodeDecodeError
| BaseException (name : string).

(** What evaluating an expression gives: a value, or a raised exception. *)
Inductive outcome (A : Type) :=
| Return (a : A)
| Raise (e : exn).
Arguments Return {A} a.
Arguments Raise {A} e.

Definition bind {A B} (m : outcome A) (k : A -> outcome B) : outcome B :=
  match m with
  | Return a => k a
  | Raise e => Raise e
  end.

Definition raises {A} (m : outcome A) : bool :=
  match m with
  | Return _ => false
  | Raise _ => true
  end.

(** [s.startswith(p)] *)
Fixpoint startswith (s p : str) {struct p} : bool :=
  match p with
  | [] => true
  | a :: p' =>
      match s with
      | [] => false
      | b :: s' => N.eqb a b && startswith s' p'
      end
  end.

(** [p in s]: [p] occurs in [s] as a substring. *)
Fixpoint contains (p s : str) : bool :=
  startswith s p ||
  match s with
  | [] => false
  | _ :: s' => contains p s'
  end.

(** [s.split(sep)] for a non-empty [sep], scanning left to right.  When
    [sep] starts at the current position the field ends and the scan jumps
    over [sep]: [skip] counts the characters of [sep] still to jump.  The
    head of the result is the field that is being read. *)
Fixpoint split_from (sep : str) (skip : nat) (s : str) : list str :=
  match s with
  | [] => [[]]
  | c :: s' =>
      match skip with
      | S k => split_from sep k s'
      | O =>
          if startswith s sep
          then [] :: split_from sep (pred (length sep)) s'
          else
            match split_from sep 0 s' with
            | f :: fs => (c :: f) :: fs
            | [] => [[c]]
            end
      end
  end.

(** [s.split(sep)]: an empty separator is a [ValueError]. *)
Definition split (s sep : str) : outcome (list str) :=
  match sep with
  | [] => Raise ValueError
  | _ :: _ => Return (split_from sep 0 s)
  end.

(** [l[i]]: a negative index counts from the end, an index out of range is
    an [IndexError]. *)
Definition getitem {A} (l : list A) (i : Z) : outcome A :=
  let n := Z.of_nat (length l) in
  let j := if (i <? 0)%Z then (n + i)%Z else i in
  if ((0 <=? j) && (j <? n))%Z
  then match nth_error l (Z.to_nat j) with
       | Some a => Return a
       | None => Raise IndexError
       end
  else Raise IndexError.

(** [c.isspace()] for one code point: the Unicode white space of CPython. *)
Definition isspace (c : char) : bool :=
  ((9 <=? c) && (c <=? 13) || (28 <=? c) && (c <=? 32)
   || (c =? 133) || (c =? 160) || (c =? 5760)
   || (8192 <=? c) && (c <=? 8202)
   || (c =? 8232) || (c =? 8233) || (c =? 8239) || (c =? 8287)
   || (c =? 12288))%N.

(** [s.lstrip()], [s.rstrip()] and [s.strip()] *)
Fixpoint lstrip (s : str) : str :=
  match s with
  | [] => []
  | c :: s' => if isspace c then lstrip s' else s
  end.

Definition rstrip (s : str) : str := rev (lstrip (rev s)).

Definition strip (s : str) : str := rstrip (lstrip s).

End Py.

(** ** Names, statements and f-strings *)

Module Lang.
Import Py.

Notation "x <- m ;; k" := (bind m (fun x => k))
  (at level 61, m at next level, right associativity).

(** The local variables of a running function, newest binding first. *)
Definition frame := list (str * str).

Fixpoint lookup (x : str) (fr : frame) : outcome str :=
  match fr with
  | [] => Raise NameError
  | (y, v) :: fr' => if str_eqb x y then Return v else lookup x fr'
  end.

Definition expr := frame -> outcome str.

(** A statement runs in a frame and leaves a frame, also when it raises:
    the names bound before the exception stay bound. *)
Definition stmt := frame -> frame * option exn.

(** [x = e] *)
Definition assign (x : str) (e : expr) : stmt :=
  fun fr =>
    match e fr with
    | Return v => ((x, v) :: fr, None)
    | Raise ex => (fr, Some ex)
    end.

(** [s1; s2] *)
Definition seq (s1 s2 : stmt) : stmt :=
  fun fr =>
    match s1 fr with
    | (fr', None) => s2 fr'
    | (fr', Some ex) => (fr', Some ex)
    end.

(** [try: body] / [except: handler], the bare [except] that catches every
    exception. *)
Definition try_except (body handler : stmt) : stmt :=
  fun fr =>
    match body fr with
    | (fr', None) => (fr', None)
    | (fr', Some _) => handler fr'
    end.

(** [body; return e], run in an empty frame. *)
Definition call (body : stmt) (e : expr) : outcome str :=
  match body [] with
  | (fr, None) => e fr
  | (_, Some ex) => Raise ex
  end.

(** The parts of an f-string: literal text and replacement fields. *)
Inductive part :=
| Text (s : str)
| Field (name : str).

Definition is_ident_char (c : char) : bool :=
  ((97 <=? c) && (c <=? 122) || (65 <=? c) && (c <=? 90)
   || (48 <=? c) && (c <=? 57) || (c =? 95))%N.

Inductive scan_state :=
| InText (acc : str)
| InField (acc : str).

Definition lbrace : char := ch "{".
Definition rbrace : char := ch "}".

(** Splitting the text of an f-string into its parts.  A doubled brace is
    one literal brace, a single [{] opens a replacement field that runs to
    the next [}], a single [}] in the text is a syntax error.  Of the
    replacement fields only the ones the source uses are read: a bare name,
    with no conversion and no format specification.  The accumulators hold
    the characters read so far, last one first. *)
Fixpoint scan (st : scan_state) (s : str) : option (list part) :=
  match s with
  | [] =>
      match st with
      | InText acc => Some [Text (rev acc)]
      | InField _ => None
      end
  | c :: s' =>
      match st with
      | InText acc =>
          if N.eqb c lbrace then
            match s' with
            | d :: s'' =>
                if N.eqb d lbrace then scan (InText (lbrace :: acc)) s''
                else option_map (cons (Text (rev acc))) (scan (InField []) s')
            | [] => None
            end
          else if N.eqb c rbrace then
            match s' with
            | d :: s'' =>
                if N.eqb d rbrace then scan (InText (rbrace :: acc)) s''
                else None
            | [] => None
            end
          else scan (InText (c :: acc)) s'
      | InField acc =>
          if N.eqb c rbrace
          then match acc with
               | [] => None
               | _ :: _ => option_map (cons (Field (rev acc))) (scan (InText []) s')
               end
          else if is_ident_char c then scan (InField (c :: acc)) s'
          else None
      end
  end.

Definition fstring_parts (text : str) : option (list part) := scan (InText []) text.

(** Evaluating the parts left to right and joining the results. *)
Fixpoint format (ps : list part) (fr : frame) : outcome str :=
  match ps with
  | [] => Return []
  | Text s :: ps' => r <- format ps' fr ;; Return (s ++ r)
  | Field x :: ps' => v <- lookup x fr ;; r <- format ps' fr ;; Return (v ++ r)
  end.

(** [f"text"] *)
Definition fstring (text : str) : expr :=
  fun fr =>
    match fstring_parts text with
    | Some ps => format ps fr
    | None => Raise SyntaxError
    end.

End Lang.

(** ** The operating system *)

Module OS.
Import Py.

(** The file object of [os.popen(cmd)]: what [read()] gives, the whole
    standard output of the command or an exception, and the exit status of
    the command, which only [close()] would report. *)
Record pipe := { read : outcome str; returncode : Z }.

(** [socket.gethostname()] is taken to return a string, as the external
    interfaces of the specification assume; [os.popen(cmd)] may raise. *)
Record world := {
  gethostname : str;
  popen : str -> outcome pipe
}.

End OS.

(** ** main.py *)

Module Main.
Import Py Lang OS.

Definition sentinel : str := lit "N/A (not on EC2)".

Definition instance_id_cmd : str := lit "ec2-metadata --instance-id 2>/dev/null".
Definition availability_zone_cmd : str := lit "ec2-metadata --availability-zone 2>/dev/null".

(** [os.popen(cmd).read().split(': ')[1].strip()] *)
Definition metadata (w : world) (cmd : str) : outcome str :=
  p <- popen w cmd ;;
  out <- read p ;;
  fields <- split out (lit ": ") ;;
  v <- getitem fields 1 ;;
  Return (strip v).

(** The text of the f-string of [home], braces doubled as in the source. *)
Definition html_template : str :=
  lit "
    <!DOCTYPE html>
    <html>
    <head>
        <title>Terraform + Docker Web Server</title>
        <style>
            body {{
                font-family: Arial, sans-serif;
                max-width: 800px;
                margin: 50px auto;
                padding: 20px;
                background: linear-gradient(135deg, #667eea 0%, #764ba2 100%);
                color: white;
            }}
            .container {{
                background: rgba(255, 255, 255, 0.1);
                padding: 30px;
                border-radius: 10px;
                backdrop-filter: blur(10px);
            }}
            h1 {{
                margin-top: 0;
            }}
            .info {{
                background: rgba(0, 0, 0, 0.2);
                padding: 15px;
                border-radius: 5px;
                margin: 10px 0;
            }}
            code {{
                background: rgba(0, 0, 0, 0.3);
                padding: 2px 6px;
                border-radius: 3px;
            }}
            .badge {{
                display: inline-block;
                padding: 5px 10px;
                border-radius: 5px;
                margin: 5px 5px 5px 0;
            }}
            .terraform-badge {{
                background: #7B42BC;
            }}
            .docker-badge {{
                background: #2496ED;
            }}
        </style>
    </head>
    <body>
        <div class="
  ++ dq
  ++ lit "container"
  ++ dq
  ++ lit ">
            <h1>"
  ++ [0x1F680%N]
  ++ lit " Hello from Terraform + Docker!</h1>
            <p>This containerized application is running on infrastructure provisioned entirely through code.</p>

            <div class="
  ++ dq
  ++ lit "info"
  ++ dq
  ++ lit ">
                <h3>Instance Information:</h3>
                <p><strong>Container Hostname:</strong> <code>{hostname}</code></p>
                <p><strong>Instance ID:</strong> <code>{instance_id}</code></p>
                <p><strong>Availability Zone:</strong> <code>{availability_zone}</code></p>
            </div>

            <div>
                <span class="
  ++ dq
  ++ lit "badge terraform-badge"
  ++ dq
  ++ lit ">"
  ++ [0x26A1%N]
  ++ lit " Provisioned with Terraform</span>
                <span class="
  ++ dq
  ++ lit "badge docker-badge"
  ++ dq
  ++ lit ">"
  ++ [0x1F433%N]
  ++ lit " Running in Docker</span>
            </div>

            <p>This entire infrastructure - ECR repository, EC2 instance, security group, and container orchestration - was created from declarative configuration files. No clicking required!</p>
        </div>
    </body>
    </html>
    ".

(** The [try] block of [home] and its handler. *)
Definition lookup_metadata (w : world) : stmt :=
  try_except
    (seq (assign (lit "instance_id") (fun _ => metadata w instance_id_cmd))
         (assign (lit "availability_zone") (fun _ => metadata w availability_zone_cmd)))
    (seq (assign (lit "instance_id") (fun _ => Return sentinel))
         (assign (lit "availability_zone") (fun _ => Return sentinel))).

(** The body of [home] up to its [return]. *)
Definition home_body (w : world) : stmt :=
  seq (assign (lit "hostname") (fun _ => Return (gethostname w)))
      (seq (lookup_metadata w)
           (assign (lit "html") (fstring html_template))).

Definition home (w : world) : outcome str :=
  call (home_body w) (lookup (lit "html")).

(** A dict with string keys and values, in insertion order. *)
Definition dict := list (str * str).

Fixpoint dict_get (d : dict) (k : str) : option str :=
  match d with
  | [] => None
  | (k', v) :: d' => if str_eqb k k' then Some v else dict_get d' k
  end.

Definition keys (d : dict) : list str := map fst d.

Definition health (w : world) : outcome dict :=
  Return [ (lit "status", lit "healthy");
           (lit "service", lit "terraform-docker-web-server");
           (lit "hostname", gethostname w) ].

(** *** The routes

    What FastAPI does with the two decorated handlers: a value returned by
    the handler is the body of a 200 response of the route's response class
    ([HTMLResponse] for [/], the default JSON response for [/api/health]),
    an exception that leaves the handler is a 500 response, a path with no
    route is 404 and a method the route is not registered for is 405. *)
Inductive content :=
| Html (s : str)
| Json (d : dict)
| Plain (s : str).

Record response := {
  status_code : Z;
  media_type : str;
  body : content
}.

Definition internal_server_error : response :=
  {| status_code := 500; media_type := lit "text/plain";
     body := Plain (lit "Internal Server Error") |}.

Definition detail (code : Z) (msg : str) : response :=
  {| status_code := code; media_type := lit "application/json";
     body := Json [(lit "detail", msg)] |}.

Definition get_root (w : world) : response :=
  match home w with
  | Return html =>
      {| status_code := 200; media_type := lit "text/html"; body := Html html |}
  | Raise _ => internal_server_error
  end.

Definition get_api_health (w : world) : response :=
  match health w with
  | Return d =>
      {| status_code := 200; media_type := lit "application/json"; body := Json d |}
  | Raise _ => internal_server_error
  end.

Definition app (w : world) (method path : str) : response :=
  if str_eqb path (lit "/") then
    if str_eqb method (lit "GET") then get_root w
    else detail 405 (lit "Method Not Allowed")
  else if str_eqb path (lit "/api/health") then
    if str_eqb method (lit "GET") then get_api_health w
    else detail 405 (lit "Method Not Allowed")
  else detail 404 (lit "Not Found").

End Main.

(** ** The page

    The document [home] returns, written out: the fixed text around three
    rows, one per value, each value inside a [<code>] element. *)

Module Page.
Import Py Lang Main.

Definition code (v : str) : str := lit "<code>" ++ v ++ lit "</code>".

Definition row (label v : str) : str :=
  lit "<p><strong>" ++ label ++ lit ":</strong> " ++ code v ++ lit "</p>".

(** Between two rows: a line break and the indentation of the source. *)
Definition gap : str := lit "
                ".

Definition page_head : str :=
  lit "
    <!DOCTYPE html>
    <html>
    <head>
        <title>Terraform + Docker Web Server</title>
        <style>
            body {
                font-family: Arial, sans-serif;
                max-width: 800px;
                margin: 50px auto;
                padding: 20px;
                background: linear-gradient(135deg, #667eea 0%, #764ba2 100%);
                color: white;
            }
            .container {
                background: rgba(255, 255, 255, 0.1);
                padding: 30px;
                border-radius: 10px;
                backdrop-filter: blur(10px);
            }
            h1 {
                margin-top: 0;
            }
            .info {
                background: rgba(0, 0, 0, 0.2);
                padding: 15px;
                border-radius: 5px;
                margin: 10px 0;
            }
            code {
                background: rgba(0, 0, 0, 0.3);
                padding: 2px 6px;
                border-radius: 3px;
            }
            .badge {
                display: inline-block;
                padding: 5px 10px;
                border-radius: 5px;
                margin: 5px 5px 5px 0;
            }
            .terraform-badge {
                background: #7B42BC;
            }
            .docker-badge {
                background: #2496ED;
            }
        </style>
    </head>
    <body>
        <div class="
  ++ dq
  ++ lit "container"
  ++ dq
  ++ lit ">
            <h1>"
  ++ [0x1F680%N]
  ++ lit " Hello from Terraform + Docker!</h1>
            <p>This containerized application is running on infrastructure provisioned entirely through code.</p>

            <div class="
  ++ dq
  ++ lit "info"
  ++ dq
  ++ lit ">
                <h3>Instance Information:</h3>
                ".

Definition page_tail : str :=
  lit "
            </div>

            <div>
                <span class="
  ++ dq
  ++ lit "badge terraform-badge"
  ++ dq
  ++ lit ">"
  ++ [0x26A1%N]
  ++ lit " Provisioned with Terraform</span>
                <span class="
  ++ dq
  ++ lit "badge docker-badge"
  ++ dq
  ++ lit ">"
  ++ [0x1F433%N]
  ++ lit " Running in Docker</span>
            </div>

            <p>This entire infrastructure - ECR repository, EC2 instance, security group, and container orchestration - was created from declarative configuration files. No clicking required!</p>
        </div>
    </body>
    </html>
    ".

Definition page (hostname instance_id availability_zone : str) : str :=
  page_head
  ++ row (lit "Container Hostname") hostname ++ gap
  ++ row (lit "Instance ID") instance_id ++ gap
  ++ row (lit "Availability Zone") availability_zone
  ++ page_tail.

Definition row_open (label : str) : str :=
  lit "<p><strong>" ++ label ++ lit ":</strong> <code>".

Definition row_close : str := lit "</code></p>".

End Page.

(** ** The metadata lookup, step by step *)

Module Lookup.
Import Py Lang OS Main.

(** The separator the source splits on. *)
Definition sep : str := lit ": ".

(** What [os.popen(cmd).read()] evaluates to. *)
Definition output (w : world) (cmd : str) : outcome str :=
  p <- popen w cmd ;; read p.

(** [out.split(': ')[1].strip()] *)
Definition parse (out : str) : outcome str :=
  fields <- split out (lit ": ") ;;
  v <- getitem fields 1 ;;
  Return (strip v).

(** The text from the start of [r] to its first separator, all of [r] when
    it has none. *)
Definition first_field (r : str) : str := hd [] (split_from sep 0 r).

End Lookup.

(** ** Running [home] *)

Module Run.
Import Py Lang OS Main Page Lookup.

(** The local variables of [home] when it reaches its [return]. *)
Definition locals (w : world) : frame := fst (home_body w []).

(** The two values of the metadata rows: the results of the two lookups
    when both return, the sentinel twice when one raises. *)
Definition shown (w : world) : str * str :=
  match metadata w instance_id_cmd with
  | Return i =>
      match metadata w availability_zone_cmd with
      | Return z => (i, z)
      | Raise _ => (sentinel, sentinel)
      end
  | Raise _ => (sentinel, sentinel)
  end.

(** The bindings the metadata lookup leaves: after a failed second query
    the first value is still bound, under the sentinel. *)
Definition bound (w : world) : frame :=
  match metadata w instance_id_cmd with
  | Return i =>
      match metadata w availability_zone_cmd with
      | Return z =>
          [ (lit "availability_zone", z); (lit "instance_id", i);
            (lit "hostname", gethostname w) ]
      | Raise _ =>
          [ (lit "availability_zone", sentinel); (lit "instance_id", sentinel);
            (lit "instance_id", i); (lit "hostname", gethostname w) ]
      end
  | Raise _ =>
      [ (lit "availability_zone", sentinel); (lit "instance_id", sentinel);
        (lit "hostname", gethostname w) ]
  end.

End Run.

(** ** Sample systems *)

Module Worlds.
Import Py Lang OS Main.

Definition nl : str := [10%N].

(** A command that runs, prints [out] and exits with status [rc]. *)
Definition prints (out : str) (rc : Z) : outcome pipe :=
  Return {| read := Return out; returncode := rc |}.

(** A host named [host] on which the two metadata commands behave as
    [iid] and [az]; any other command prints nothing and exits with 127. *)
Definition scripted (host : str) (iid az : outcome pipe) : world :=
  {| gethostname := host;
     popen := fun cmd =>
       if str_eqb cmd instance_id_cmd then iid
       else if str_eqb cmd availability_zone_cmd then az
       else prints [] 127 |}.

Definition host : str := lit "ip-10-0-1-23".

Definition instance_id_line : str := lit "instance-id: i-0123456789abcdef0" ++ nl.
Definition availability_zone_line : str := lit "availability-zone: us-east-1a" ++ nl.

(** No [ec2-metadata] command: the shell prints nothing on the standard
    output and exits with 127. *)
Definition absent : world := scripted host (prints [] 127) (prints [] 127).

(** An EC2 instance. *)
Definition on_ec2 : world :=
  scripted host (prints instance_id_line 0) (prints availability_zone_line 0).

(** The same outputs from commands that exit with status 1. *)
Definition on_ec2_exit_1 : world :=
  scripted host (prints instance_id_line 1) (prints availability_zone_line 1).

(** The instance id is found, the availability zone query cannot start. *)
Definition zone_unreachable : world :=
  scripted host (prints instance_id_line 0) (Raise OSError).

(** A value that itself holds a colon and a space. *)
Definition nested : world :=
  scripted host (prints (lit "instance-id: a: b" ++ nl) 0)
                (prints availability_zone_line 0).

(** The instance id query prints two lines. *)
Definition two_lines : world :=
  scripted host (prints (instance_id_line ++ availability_zone_line) 0)
                (prints availability_zone_line 0).



(** A hostname and metadata values with HTML markup in them. *)
Definition markup : world :=
  scripted (lit "<b>web&1</b>")
           (prints (lit "instance-id: <script>alert(1)</script>" ++ nl) 0)
           (prints (lit "availability-zone: <i>&amp;</i>" ++ nl) 0).

End Worlds.

(** ** The notions of the specification *)

Module Props.
Import Py Lang OS Main Lookup.

Unset Implicit Arguments.

(** The ways one metadata query fails: [os.popen] raises, [read] raises, or
    the output has no [": "] in it, as the empty output of a missing
    command. *)
Inductive query_failure (w : world) (cmd : str) : Prop :=
| popen_raises (e : exn) :
    popen w cmd = Raise e -> query_failure w cmd
| read_raises (p : pipe) (e : exn) :
    popen w cmd = Return p -> read p = Raise e -> query_failure w cmd
| no_separator (p : pipe) (out : str) :
    popen w cmd = Return p -> read p = Return out ->
    contains sep out = false -> query_failure w cmd.

(** The metadata lookup of a request fails when one of its queries does. *)
Definition unavailable (w : world) : Prop :=
  query_failure w instance_id_cmd \/ query_failure w availability_zone_cmd.


(** [s.count(p)] for a non-empty [p]: the occurrences of [p] in [s] that do
    not overlap, counted from the left. *)
Fixpoint count_from (p : str) (skip : nat) (s : str) : nat :=
  match s with
  | [] => 0
  | _ :: s' =>
      match skip with
      | S k => count_from p k s'
      | O =>
          if startswith s p then S (count_from p (pred (length p)) s')
          else count_from p 0 s'
      end
  end.

Definition count (s p : str) : nat := count_from p 0 s.

(** A line break, if [s] has one, is its last character. *)
Fixpoint one_line (s : str) : bool :=
  match s with
  | [] => true
  | c :: s' =>
      match s' with
      | [] => true
      | _ :: _ => negb (N.eqb c 10) && one_line s'
      end
  end.

(** Following the specification's words, a well-formed single [key: value]
    line: one line, a key with no separator in it, the separator, and the
    rest of the line. *)
Definition key_value_line (key rest out : str) : Prop :=
  out = key ++ sep ++ rest /\ contains sep key = false /\ one_line out = true.

(** Following the specification's words, the expected shape of an output:
    a single line with a key, the separator and a value. *)
Definition expected_shape (out : str) : bool :=
  one_line out && contains sep out.

(** Following the specification's words, a query is unavailable on a
    process-invocation failure (the command cannot be started or its
    output cannot be read), a non-zero exit, empty output, or output not
    matching the expected [key: value] shape. *)
Inductive metadata_unavailable (w : world) (cmd : str) : Prop :=
| invocation_failure (e : exn) :
    popen w cmd = Raise e -> metadata_unavailable w cmd
| unreadable (p : pipe) (e : exn) :
    popen w cmd = Return p -> read p = Raise e -> metadata_unavailable w cmd
| non_zero_exit (p : pipe) :
    popen w cmd = Return p -> returncode p <> 0%Z -> metadata_unavailable w cmd
| empty_output (p : pipe) :
    popen w cmd = Return p -> read p = Return [] -> metadata_unavailable w cmd
| unexpected_shape (p : pipe) (out : str) :
    popen w cmd = Return p -> read p = Return out ->
    expected_shape out = false -> metadata_unavailable w cmd.

Set Implicit Arguments.

End Props.

(** ** More sample systems *)

Module Outputs.
Import Py Lang OS Main Worlds.

(** The instance id line has its key and the separator, and only a line
    break after them. *)
Definition blank_value : world :=
  scripted host (prints (lit "instance-id: " ++ nl) 0)
                (prints availability_zone_line 0).

End Outputs.

(** ** Splitting on [": "] *)

Module SplitFacts.
Import Py Lookup.

Lemma split_from_nonempty (p : str) (k : nat) (s : str) :
  split_from p k s <> [].
Proof.
  revert k; induction s as [|c s IH]; intros k; cbn [split_from].
  - discriminate.
  - destruct k as [|k].
    + destruct (startswith (c :: s) p); [discriminate|].
      destruct (split_from p 0 s); discriminate.
    + apply IH.
Qed.

Lemma contains_startswith (p s : str) :
  contains p s = false -> startswith s p = false.
Proof.
  destruct s; simpl; intros H; apply orb_false_iff in H; tauto.
Qed.

Lemma contains_tail (p : str) (c : char) (s : str) :
  contains p (c :: s) = false -> contains p s = false.
Proof.
  simpl; intros H; apply orb_false_iff in H; tauto.
Qed.

Lemma startswith_app (p r : str) : startswith (p ++ r) p = true.
Proof.
  induction p as [|a p IH]; simpl; [reflexivity|].
  now rewrite N.eqb_refl, IH.
Qed.

Lemma startswith_inv (p s : str) :
  startswith s p = true -> exists r, s = p ++ r.
Proof.
  revert s; induction p as [|a p IH]; intros s H; simpl in *.
  - now exists s.
  - destruct s as [|b s]; [discriminate|].
    apply andb_true_iff in H as [Hab Hs].
    apply N.eqb_eq in Hab; subst b.
    destruct (IH _ Hs) as [r ->].
    now exists r.
Qed.

Lemma startswith_contains (p s : str) :
  startswith s p = true -> contains p s = true.
Proof.
  destruct s; simpl; intros ->; reflexivity.
Qed.

(** [p in s] holds exactly when [s] is some text, [p], and some text. *)
Lemma contains_spec (p s : str) :
  contains p s = true <-> exists a b, s = a ++ p ++ b.
Proof.
  split.
  - induction s as [|c s IH]; simpl; intros H; apply orb_true_iff in H.
    + destruct H as [H|H]; [|discriminate].
      destruct (startswith_inv _ _ H) as [r Hr]. now exists [], r.
    + destruct H as [H|H].
      * destruct (startswith_inv _ _ H) as [r Hr]. now exists [], r.
      * destruct (IH H) as (a & b & ->). now exists (c :: a), b.
  - intros (a & b & ->).
    induction a as [|c a IH]; simpl.
    + apply startswith_contains, startswith_app.
    + rewrite IH. apply orb_true_r.
Qed.

(** No [": "] starts inside a key that has none, whatever follows the
    separator that ends it: the colon of the separator is no space. *)
Lemma startswith_key (k r : str) :
  k <> [] -> contains sep k = false ->
  startswith (k ++ sep ++ r) sep = false.
Proof.
  intros Hk H. apply contains_startswith in H.
  destruct k as [|c [|b k]]; [congruence| |]; simpl in *.
  - now rewrite andb_false_r.
  - exact H.
Qed.

(** Output without a separator is one field. *)
Lemma split_no_sep (s : str) :
  contains sep s = false -> split_from sep 0 s = [s].
Proof.
  induction s as [|c s IH]; intros H; [reflexivity|].
  change (split_from sep 0 (c :: s))
    with (if startswith (c :: s) sep
          then [] :: split_from sep 1 s
          else match split_from sep 0 s with
               | f :: fs => (c :: f) :: fs
               | [] => [[c]]
               end).
  rewrite (contains_startswith _ _ H), (IH (contains_tail _ _ _ H)).
  reflexivity.
Qed.

(** The first field ends at the first separator. *)
Lemma split_first (k r : str) :
  contains sep k = false ->
  split_from sep 0 (k ++ sep ++ r) = k :: split_from sep 0 r.
Proof.
  induction k as [|c k IH]; intros H.
  - reflexivity.
  - change (split_from sep 0 ((c :: k) ++ sep ++ r))
      with (if startswith ((c :: k) ++ sep ++ r) sep
            then [] :: split_from sep 1 (k ++ sep ++ r)
            else match split_from sep 0 (k ++ sep ++ r) with
                 | f :: fs => (c :: f) :: fs
                 | [] => [[c]]
                 end).
    rewrite (startswith_key (k := c :: k) r) by (congruence || exact H).
    rewrite (IH (contains_tail _ _ _ H)). reflexivity.
Qed.

Lemma startswith_longer (p s t : str) :
  startswith s p = true -> startswith (s ++ t) p = true.
Proof.
  revert s; induction p as [|a p IH]; intros s H; [reflexivity|].
  destruct s as [|b s]; [discriminate|].
  cbn [startswith app] in *.
  apply andb_true_iff in H as [Hab Hs].
  now rewrite Hab, (IH _ Hs).
Qed.

(** Output with a separator is a key with none, the separator, and the
    rest. *)
Lemma first_sep (s : str) :
  contains sep s = true ->
  exists k r, s = k ++ sep ++ r /\ contains sep k = false.
Proof.
  induction s as [|c s IH]; intros H; [discriminate|].
  destruct (startswith (c :: s) sep) eqn:E.
  - destruct (startswith_inv _ _ E) as [r Hr].
    exists [], r. now split.
  - cbn [contains] in H. rewrite E in H. cbn [orb] in H.
    destruct (IH H) as (k & r & -> & Hk).
    exists (c :: k), r. split; [reflexivity|].
    cbn [contains]. rewrite Hk, orb_false_r.
    destruct (startswith (c :: k) sep) eqn:E'; [|reflexivity].
    apply (startswith_longer _ _ (sep ++ r)) in E'.
    change ((c :: k) ++ sep ++ r) with (c :: k ++ sep ++ r) in E'.
    congruence.
Qed.

(** Output with a separator has at least two fields. *)
Lemma split_sep (s : str) :
  contains sep s = true ->
  exists f g fs, split_from sep 0 s = f :: g :: fs.
Proof.
  induction s as [|c s IH]; intros H; [discriminate|].
  change (split_from sep 0 (c :: s))
    with (if startswith (c :: s) sep
          then [] :: split_from sep 1 s
          else match split_from sep 0 s with
               | f :: fs => (c :: f) :: fs
               | [] => [[c]]
               end).
  destruct (startswith (c :: s) sep) eqn:E.
  - destruct (split_from sep 1 s) as [|g fs] eqn:E1.
    + now apply split_from_nonempty in E1.
    + now exists [], g, fs.
  - cbn [contains] in H. rewrite E in H. cbn [orb] in H.
    destruct (IH H) as (f & g & fs & ->).
    now exists (c :: f), g, fs.
Qed.

End SplitFacts.

(** ** The f-string of [home] is the page *)

Module PageFacts.
Import Py Lang Main Page.

Lemma row_parts (label v : str) : row label v = row_open label ++ v ++ row_close.
Proof.
  unfold row, row_open, code, row_close.
  repeat rewrite <- app_assoc. reflexivity.
Qed.

(** The f-string of [home] is text, [hostname], text, [instance_id], text,
    [availability_zone], text, and the texts are the ones of [page]. *)
Lemma template_parts :
  fstring_parts html_template =
  Some [ Text (page_head ++ row_open (lit "Container Hostname"));
         Field (lit "hostname");
         Text (row_close ++ gap ++ row_open (lit "Instance ID"));
         Field (lit "instance_id");
         Text (row_close ++ gap ++ row_open (lit "Availability Zone"));
         Field (lit "availability_zone");
         Text (row_close ++ page_tail) ].
Proof. vm_compute. reflexivity. Qed.

Lemma fstring_page (fr : frame) (h i z : str) :
  lookup (lit "hostname") fr = Return h ->
  lookup (lit "instance_id") fr = Return i ->
  lookup (lit "availability_zone") fr = Return z ->
  fstring html_template fr = Return (page h i z).
Proof.
  intros Hh Hi Hz. unfold fstring. rewrite template_parts.
  cbn [format]. rewrite Hh, Hi, Hz. cbn [bind].
  unfold page. rewrite !row_parts.
  repeat rewrite <- app_assoc. reflexivity.
Qed.

End PageFacts.

(** ** What a query returns *)

Module LookupFacts.
Import Py Lang OS Main Lookup SplitFacts.

Lemma metadata_parse (w : world) (cmd : str) :
  metadata w cmd = (out <- output w cmd ;; parse out).
Proof.
  unfold metadata, output, parse.
  destruct (popen w cmd) as [p|e]; simpl; [|reflexivity].
  destruct (read p); reflexivity.
Qed.

Lemma getitem_second {A} (f g : A) (fs : list A) :
  getitem (f :: g :: fs) 1 = Return g.
Proof.
  unfold getitem. cbn [length].
  replace (1 <? 0)%Z with false by reflexivity.
  destruct ((0 <=? 1) && (1 <? Z.of_nat (S (S (length fs)))))%Z eqn:E.
  - reflexivity.
  - apply andb_false_iff in E as [E|E].
    + discriminate.
    + apply Z.ltb_ge in E. lia.
Qed.

Lemma parse_split (out : str) :
  parse out = (v <- getitem (split_from sep 0 out) 1 ;; Return (strip v)).
Proof. reflexivity. Qed.

Lemma parse_no_sep (out : str) :
  contains sep out = false -> parse out = Raise IndexError.
Proof.
  intros H. rewrite parse_split, (split_no_sep _ H). reflexivity.
Qed.

Lemma parse_sep (out : str) :
  contains sep out = true -> exists v, parse out = Return v.
Proof.
  intros H. destruct (split_sep _ H) as (f & g & fs & E).
  rewrite parse_split, E, getitem_second. now exists (strip g).
Qed.

Lemma parse_first (k r : str) :
  contains sep k = false ->
  parse (k ++ sep ++ r) = Return (strip (first_field r)).
Proof.
  intros H. rewrite parse_split, (split_first k r H).
  unfold first_field.
  destruct (split_from sep 0 r) as [|g fs] eqn:E.
  - now apply split_from_nonempty in E.
  - now rewrite getitem_second.
Qed.

Lemma parse_key_value (k v : str) :
  contains sep k = false -> contains sep v = false ->
  parse (k ++ sep ++ v) = Return (strip v).
Proof.
  intros Hk Hv. rewrite (parse_first k v Hk).
  unfold first_field. now rewrite (split_no_sep _ Hv).
Qed.

(** Output with a separator is never rejected: the value is the text
    between its first separator and the next one, stripped. *)
Lemma parse_with_sep (out : str) :
  contains sep out = true ->
  exists k r, out = k ++ sep ++ r /\ contains sep k = false
              /\ parse out = Return (strip (first_field r)).
Proof.
  intros H. destruct (first_sep _ H) as (k & r & -> & Hk).
  exists k, r. repeat split; [exact Hk|]. now apply parse_first.
Qed.

(** Parsing raises exactly on the outputs that have no separator. *)
Lemma parse_raises (out : str) :
  raises (parse out) = negb (contains sep out).
Proof.
  destruct (contains sep out) eqn:E.
  - destruct (parse_sep _ E) as [v ->]. reflexivity.
  - now rewrite (parse_no_sep _ E).
Qed.

End LookupFacts.

(** ** What [home] returns *)

Module RunFacts.
Import Py Lang OS Main Page Lookup Run PageFacts LookupFacts.

(** The last assignment of [home]: [html = f"..."]. *)
Lemma assign_html (fr : frame) (h i z : str) :
  lookup (lit "hostname") fr = Return h ->
  lookup (lit "instance_id") fr = Return i ->
  lookup (lit "availability_zone") fr = Return z ->
  assign (lit "html") (fstring html_template) fr
  = ((lit "html", page h i z) :: fr, None).
Proof.
  intros Hh Hi Hz. unfold assign.
  now rewrite (fstring_page fr Hh Hi Hz).
Qed.

Lemma bound_lookup (w : world) :
  lookup (lit "hostname") (bound w) = Return (gethostname w)
  /\ lookup (lit "instance_id") (bound w) = Return (fst (shown w))
  /\ lookup (lit "availability_zone") (bound w) = Return (snd (shown w)).
Proof.
  unfold bound, shown.
  destruct (metadata w instance_id_cmd) as [i|e];
    [destruct (metadata w availability_zone_cmd) as [z|e]|];
    repeat split.
Qed.

Lemma home_body_run (w : world) :
  home_body w []
  = ((lit "html", page (gethostname w) (fst (shown w)) (snd (shown w)))
       :: bound w, None).
Proof.
  destruct (bound_lookup w) as (Hh & Hi & Hz).
  rewrite <- (assign_html (bound w) Hh Hi Hz).
  unfold home_body.
  set (render := assign (lit "html") (fstring html_template)).
  unfold lookup_metadata, seq, try_except, assign, bound.
  destruct (metadata w instance_id_cmd) as [i|e];
    [destruct (metadata w availability_zone_cmd) as [z|e]|];
    reflexivity.
Qed.

Lemma home_run (w : world) :
  lookup (lit "hostname") (locals w) = Return (gethostname w)
  /\ lookup (lit "instance_id") (locals w) = Return (fst (shown w))
  /\ lookup (lit "availability_zone") (locals w) = Return (snd (shown w))
  /\ home w = Return (page (gethostname w) (fst (shown w)) (snd (shown w))).
Proof.
  destruct (bound_lookup w) as (Hh & Hi & Hz).
  unfold locals, home, call. rewrite home_body_run. cbn [fst].
  change (lookup (lit "hostname") (bound w) = Return (gethostname w)
          /\ lookup (lit "instance_id") (bound w) = Return (fst (shown w))
          /\ lookup (lit "availability_zone") (bound w) = Return (snd (shown w))
          /\ Return (page (gethostname w) (fst (shown w)) (snd (shown w)))
             = Return (page (gethostname w) (fst (shown w)) (snd (shown w)))).
  auto.
Qed.

End RunFacts.

(** ** The properties of the specification *)

Module Spec.
Import Py Lang OS Main Page Lookup Run Worlds Props
       SplitFacts PageFacts LookupFacts RunFacts.

Unset Implicit Arguments.

(** *** Shared lemmas *)

Lemma str_eqb_refl (a : str) : str_eqb a a = true.
Proof.
  induction a as [|x a IH]; simpl; [reflexivity|].
  now rewrite N.eqb_refl, IH.
Qed.

Lemma str_eqb_neq (a b : str) : str_eqb a b = false -> a <> b.
Proof.
  intros E H. subst b. rewrite str_eqb_refl in E. discriminate E.
Qed.

Lemma Return_inj {A} (a b : A) : Return a = Return b -> a = b.
Proof. intros H. now injection H. Qed.

Lemma output_cases (w : world) (cmd : str) :
  metadata w cmd =
  match output w cmd with
  | Return out => parse out
  | Raise e => Raise e
  end.
Proof. rewrite metadata_parse. destruct (output w cmd); reflexivity. Qed.

(** A query fails exactly when its expression raises. *)
Lemma query_failure_raises (w : world) (cmd : str) :
  query_failure w cmd <-> raises (metadata w cmd) = true.
Proof.
  rewrite output_cases. unfold output. split.
  - intros [e He|p e Hp He|p out Hp Hr Hs].
    + now rewrite He.
    + rewrite Hp; simpl. now rewrite He.
    + rewrite Hp; simpl. rewrite Hr, parse_raises, Hs. reflexivity.
  - destruct (popen w cmd) as [p|e] eqn:Hp; simpl.
    + destruct (read p) as [out|e] eqn:Hr.
      * rewrite parse_raises. intros H.
        apply (no_separator w cmd p out Hp Hr).
        now destruct (contains sep out).
      * intros _. exact (read_raises w cmd p e Hp Hr).
    + intros _. exact (popen_raises w cmd e Hp).
Qed.

(** The failures the code reacts to are among those of the specification. *)
Lemma query_failure_unavailable (w : world) (cmd : str) :
  query_failure w cmd -> metadata_unavailable w cmd.
Proof.
  intros [e He|p e Hp He|p out Hp Hr Hs].
  - exact (invocation_failure w cmd e He).
  - exact (unreadable w cmd p e Hp He).
  - apply (unexpected_shape w cmd p out Hp Hr).
    unfold expected_shape. rewrite Hs. apply andb_false_r.
Qed.

(** A query fails or its output holds a separator. *)
Lemma query_cases (w : world) (cmd : str) :
  query_failure w cmd
  \/ exists out, output w cmd = Return out /\ contains sep out = true.
Proof.
  unfold output.
  destruct (popen w cmd) as [p|e] eqn:Hp; cbn [bind].
  - destruct (read p) as [out|e] eqn:Hr.
    + destruct (contains sep out) eqn:Hs.
      * right. now exists out.
      * left. exact (no_separator w cmd p out Hp Hr Hs).
    + left. exact (read_raises w cmd p e Hp Hr).
  - left. exact (popen_raises w cmd e Hp).
Qed.

(** When the lookup fails both rows show the sentinel. *)
Lemma unavailable_shown (w : world) :
  unavailable w -> shown w = (sentinel, sentinel).
Proof.
  unfold unavailable, shown.
  rewrite !query_failure_raises.
  destruct (metadata w instance_id_cmd);
    destruct (metadata w availability_zone_cmd); simpl;
    intros [H|H]; congruence.
Qed.

(** When it does not, they show the two parsed values. *)
Lemma available_shown (w : world) :
  ~ unavailable w ->
  exists i z, metadata w instance_id_cmd = Return i
              /\ metadata w availability_zone_cmd = Return z
              /\ shown w = (i, z).
Proof.
  unfold unavailable, shown.
  rewrite !query_failure_raises.
  destruct (metadata w instance_id_cmd) as [i|e];
    destruct (metadata w availability_zone_cmd) as [z|e']; simpl; intros H.
  - now exists i, z.
  - exfalso; apply H; now right.
  - exfalso; apply H; now left.
  - exfalso; apply H; now left.
Qed.


Lemma page_length (h i z : str) :
  length (page h i z) = length (page [] [] []) + length h + length i + length z.
Proof.
  unfold page, row, code. rewrite !length_app. cbn [length]. lia.
Qed.

(** *** The claims *)

(** C1. Every GET / is answered with status 200 and the rendered page,
    whatever the two metadata commands do: [home] never raises, and a
    failed lookup only decides which two values [shown] puts in the page. *)
Theorem home_status_200 (w : world) :
  raises (home w) = false
  /\ app w (lit "GET") (lit "/") =
     {| status_code := 200;
        media_type := lit "text/html";
        body := Html (page (gethostname w) (fst (shown w)) (snd (shown w))) |}.
Proof.
  destruct (home_run w) as (_ & _ & _ & H).
  split; [now rewrite H|].
  change (app w (lit "GET") (lit "/")) with (get_root w).
  unfold get_root. now rewrite H.
Qed.

(** C2. Every GET /api/health is answered with status 200 and a JSON
    object whose keys are exactly status, service and hostname, with
    status equal to "healthy". *)
Theorem health_body (w : world) :
  exists d,
    app w (lit "GET") (lit "/api/health") =
      {| status_code := 200; media_type := lit "application/json";
         body := Json d |}
    /\ keys d = [lit "status"; lit "service"; lit "hostname"]
    /\ dict_get d (lit "status") = Some (lit "healthy").
Proof.
  exists [ (lit "status", lit "healthy");
           (lit "service", lit "terraform-docker-web-server");
           (lit "hostname", gethostname w) ].
  repeat split.
Qed.

(** C10. The service identifier of the health response is the literal
    "terraform-docker-web-server" on every invocation. *)
Theorem health_service_name (w : world) :
  exists d,
    health w = Return d
    /\ body (app w (lit "GET") (lit "/api/health")) = Json d
    /\ dict_get d (lit "service") = Some (lit "terraform-docker-web-server").
Proof.
  eexists. repeat split.
Qed.

(** C6. In one process environment the hostname in the page of GET / is
    the hostname field of the JSON of GET /api/health: both are what
    [socket.gethostname()] returns. *)
Theorem hostname_agrees (w : world) :
  exists h i z d,
    lookup (lit "hostname") (locals w) = Return h
    /\ home w = Return (page h i z)
    /\ health w = Return d
    /\ dict_get d (lit "hostname") = Some h
    /\ h = gethostname w.
Proof.
  destruct (home_run w) as (Hh & _ & _ & H).
  exists (gethostname w), (fst (shown w)), (snd (shown w)).
  eexists. repeat split; [exact Hh|exact H].
Qed.



Example absent_page_count :
  match home absent with
  | Return html => count html (lit "<code>N/A (not on EC2)</code>")
  | Raise _ => 0
  end = 2.
Proof. vm_compute. reflexivity. Qed.


(** C4, as amended.  When each of the two queries returns a well-formed
    single [key: value] line whose text after the ["key: "] prefix holds
    no further [": "], the page shows exactly that text with the
    surrounding white space stripped. *)
Theorem key_value_rendered (w : world) (ki ri oi kz rz oz : str) :
  output w instance_id_cmd = Return oi ->
  output w availability_zone_cmd = Return oz ->
  key_value_line ki ri oi ->
  key_value_line kz rz oz ->
  contains sep ri = false ->
  contains sep rz = false ->
  lookup (lit "instance_id") (locals w) = Return (strip ri)
  /\ lookup (lit "availability_zone") (locals w) = Return (strip rz)
  /\ home w = Return (page (gethostname w) (strip ri) (strip rz)).
Proof.
  intros Hoi Hoz (-> & Hki & _) (-> & Hkz & _) Hri Hrz.
  destruct (home_run w) as (_ & Hi & Hz & Hp).
  assert (Hs : shown w = (strip ri, strip rz)).
  { unfold shown. rewrite !output_cases, Hoi, Hoz.
    now rewrite !parse_key_value. }
  rewrite Hs in *. cbn [fst snd] in *. auto.
Qed.

(** The scenario of the specification: the two lines of an EC2 instance
    give [i-0123456789abcdef0] and [us-east-1a]. *)
Lemma key_value_rendered_witness :
  output on_ec2 instance_id_cmd = Return instance_id_line
  /\ output on_ec2 availability_zone_cmd = Return availability_zone_line
  /\ key_value_line (lit "instance-id") (lit "i-0123456789abcdef0" ++ nl)
       instance_id_line
  /\ key_value_line (lit "availability-zone") (lit "us-east-1a" ++ nl)
       availability_zone_line
  /\ contains sep (lit "i-0123456789abcdef0" ++ nl) = false
  /\ contains sep (lit "us-east-1a" ++ nl) = false
  /\ strip (lit "i-0123456789abcdef0" ++ nl) = lit "i-0123456789abcdef0"
  /\ strip (lit "us-east-1a" ++ nl) = lit "us-east-1a"
  /\ (lookup (lit "instance_id") (locals on_ec2)
        = Return (strip (lit "i-0123456789abcdef0" ++ nl))
      /\ lookup (lit "availability_zone") (locals on_ec2)
        = Return (strip (lit "us-east-1a" ++ nl))
      /\ home on_ec2
        = Return (page (gethostname on_ec2)
                       (strip (lit "i-0123456789abcdef0" ++ nl))
                       (strip (lit "us-east-1a" ++ nl)))).
Proof.
  assert (Hoi : output on_ec2 instance_id_cmd = Return instance_id_line)
    by reflexivity.
  assert (Hoz : output on_ec2 availability_zone_cmd = Return availability_zone_line)
    by reflexivity.
  assert (Hli : key_value_line (lit "instance-id")
                  (lit "i-0123456789abcdef0" ++ nl) instance_id_line)
    by (repeat split; reflexivity).
  assert (Hlz : key_value_line (lit "availability-zone")
                  (lit "us-east-1a" ++ nl) availability_zone_line)
    by (repeat split; reflexivity).
  assert (Hri : contains sep (lit "i-0123456789abcdef0" ++ nl) = false)
    by reflexivity.
  assert (Hrz : contains sep (lit "us-east-1a" ++ nl) = false)
    by reflexivity.
  refine (conj Hoi (conj Hoz (conj Hli (conj Hlz (conj Hri (conj Hrz
            (conj eq_refl (conj eq_refl _)))))))).
  exact (key_value_rendered on_ec2 _ _ _ _ _ _ Hoi Hoz Hli Hlz Hri Hrz).
Defined.

(** C4 as stated fails: the line [instance-id: a: b] is a well-formed
    single [key: value] line, the text after its prefix is [a: b], and the
    page shows [a]. *)
Lemma nested_separator_truncated :
  output nested instance_id_cmd = Return (lit "instance-id: a: b" ++ nl)
  /\ output nested availability_zone_cmd = Return availability_zone_line
  /\ key_value_line (lit "instance-id") (lit "a: b" ++ nl)
       (lit "instance-id: a: b" ++ nl)
  /\ key_value_line (lit "availability-zone") (lit "us-east-1a" ++ nl)
       availability_zone_line
  /\ strip (lit "a: b" ++ nl) = lit "a: b"
  /\ lookup (lit "instance_id") (locals nested) = Return (lit "a")
  /\ lookup (lit "instance_id") (locals nested)
     <> Return (strip (lit "a: b" ++ nl))
  /\ home nested = Return (page host (lit "a") (lit "us-east-1a"))
  /\ home nested
     <> Return (page host (strip (lit "a: b" ++ nl))
                     (strip (lit "us-east-1a" ++ nl))).
Proof.
  assert (Hs : shown nested = (lit "a", lit "us-east-1a"))
    by (vm_compute; reflexivity).
  destruct (home_run nested) as (_ & Hi & _ & Hp).
  rewrite Hs in Hi, Hp. cbn [fst snd] in Hi, Hp.
  change (gethostname nested) with host in Hp.
  split; [reflexivity|]. split; [reflexivity|].
  split; [repeat split; reflexivity|]. split; [repeat split; reflexivity|].
  split; [reflexivity|]. split; [exact Hi|].
  split; [rewrite Hi; intros H; vm_compute in H; discriminate H|].
  split; [exact Hp|].
  rewrite Hp. intros H. apply Return_inj in H. revert H.
  apply str_eqb_neq. vm_compute. reflexivity.
Qed.

(** C5, as amended.  A request in which a query cannot be run or read, or
    has an output with no [": "] in it, the empty output included, is
    treated as unavailable: both rows show the sentinel, whatever the
    other query returned.  In every other request both outputs hold the
    separator, and then nothing is treated as unavailable, whatever else
    the shape of the outputs: each row shows the text between the first
    separator of its output and the next one, or the end of the output,
    stripped. *)
Theorem unavailable_or_parsed (w : world) :
  (unavailable w ->
     lookup (lit "instance_id") (locals w) = Return sentinel
     /\ lookup (lit "availability_zone") (locals w) = Return sentinel
     /\ home w = Return (page (gethostname w) sentinel sentinel))
  /\ (forall oi oz,
        output w instance_id_cmd = Return oi ->
        output w availability_zone_cmd = Return oz ->
        contains sep oi = true ->
        contains sep oz = true ->
        exists ki ri kz rz,
          oi = ki ++ sep ++ ri /\ contains sep ki = false
          /\ oz = kz ++ sep ++ rz /\ contains sep kz = false
          /\ lookup (lit "instance_id") (locals w)
             = Return (strip (first_field ri))
          /\ lookup (lit "availability_zone") (locals w)
             = Return (strip (first_field rz)))
  /\ (unavailable w
      \/ exists oi oz,
           output w instance_id_cmd = Return oi
           /\ output w availability_zone_cmd = Return oz
           /\ contains sep oi = true
           /\ contains sep oz = true).
Proof.
  destruct (home_run w) as (_ & Hi & Hz & Hp).
  split; [|split].
  - intros H. apply unavailable_shown in H.
    rewrite H in *. cbn [fst snd] in *. auto.
  - clear Hp.
    intros oi oz Hoi Hoz Hsi Hsz.
    destruct (parse_with_sep _ Hsi) as (ki & ri & Ei & Hki & Hpi).
    destruct (parse_with_sep _ Hsz) as (kz & rz & Ez & Hkz & Hpz).
    exists ki, ri, kz, rz.
    assert (Hs : shown w = (strip (first_field ri), strip (first_field rz))).
    { unfold shown. now rewrite !output_cases, Hoi, Hoz, Hpi, Hpz. }
    rewrite Hs in Hi, Hz. cbn [fst snd] in Hi, Hz.
    repeat split; assumption.
  - clear Hi Hz Hp.
    destruct (query_cases w instance_id_cmd) as [F|(oi & Hoi & Hsi)];
      [left; now left|].
    destruct (query_cases w availability_zone_cmd) as [F|(oz & Hoz & Hsz)];
      [left; now right|].
    right. now exists oi, oz.
Qed.

Lemma unavailable_or_parsed_witness :
  unavailable zone_unreachable
  /\ (lookup (lit "instance_id") (locals zone_unreachable) = Return sentinel
      /\ lookup (lit "availability_zone") (locals zone_unreachable)
         = Return sentinel
      /\ home zone_unreachable
         = Return (page (gethostname zone_unreachable) sentinel sentinel))
  /\ output on_ec2 instance_id_cmd = Return instance_id_line
  /\ output on_ec2 availability_zone_cmd = Return availability_zone_line
  /\ contains sep instance_id_line = true
  /\ contains sep availability_zone_line = true
  /\ exists ki ri kz rz,
       instance_id_line = ki ++ sep ++ ri /\ contains sep ki = false
       /\ availability_zone_line = kz ++ sep ++ rz /\ contains sep kz = false
       /\ lookup (lit "instance_id") (locals on_ec2)
          = Return (strip (first_field ri))
       /\ lookup (lit "availability_zone") (locals on_ec2)
          = Return (strip (first_field rz)).
Proof.
  assert (H : unavailable zone_unreachable).
  { right. eapply popen_raises. reflexivity. }
  split; [exact H|].
  split; [exact (proj1 (unavailable_or_parsed zone_unreachable) H)|].
  refine (conj eq_refl (conj eq_refl (conj eq_refl (conj eq_refl _)))).
  exact (proj1 (proj2 (unavailable_or_parsed on_ec2)) instance_id_line
           availability_zone_line eq_refl eq_refl eq_refl eq_refl).
Defined.

(** C5 as stated fails: two lines are not the expected single
    [key: value] line, and the page shows neither the sentinel nor a value
    of the output, but the end of its first line with the start of its
    second. *)
Lemma two_lines_partly_extracted :
  output two_lines instance_id_cmd
  = Return (instance_id_line ++ availability_zone_line)
  /\ expected_shape (instance_id_line ++ availability_zone_line) = false
  /\ lookup (lit "instance_id") (locals two_lines)
     = Return (lit "i-0123456789abcdef0" ++ nl ++ lit "availability-zone")
  /\ lookup (lit "instance_id") (locals two_lines) <> Return sentinel
  /\ home two_lines
     = Return (page host
                 (lit "i-0123456789abcdef0" ++ nl ++ lit "availability-zone")
                 (lit "us-east-1a")).
Proof.
  assert (Hs : shown two_lines
               = (lit "i-0123456789abcdef0" ++ nl ++ lit "availability-zone",
                  lit "us-east-1a"))
    by (vm_compute; reflexivity).
  destruct (home_run two_lines) as (_ & Hi & _ & Hp).
  rewrite Hs in Hi, Hp. cbn [fst snd] in Hi, Hp.
  change (gethostname two_lines) with host in Hp.
  split; [reflexivity|]. split; [reflexivity|].
  split; [exact Hi|]. split; [|exact Hp].
  rewrite Hi. intros H. vm_compute in H. discriminate H.
Qed.

(** C7. Both handlers are functions of their external inputs: in two
    systems with the same hostname and the same outcomes of the two
    metadata commands, whatever else differs (exit statuses, other
    commands), the same request gets the same response. *)
Theorem same_inputs_same_response (w1 w2 : world) :
  gethostname w1 = gethostname w2 ->
  output w1 instance_id_cmd = output w2 instance_id_cmd ->
  output w1 availability_zone_cmd = output w2 availability_zone_cmd ->
  home w1 = home w2
  /\ health w1 = health w2
  /\ app w1 (lit "GET") (lit "/") = app w2 (lit "GET") (lit "/")
  /\ app w1 (lit "GET") (lit "/api/health")
     = app w2 (lit "GET") (lit "/api/health").
Proof.
  intros Hh Hi Hz.
  assert (Hs : shown w1 = shown w2).
  { unfold shown. now rewrite !output_cases, Hi, Hz. }
  assert (Hhome : home w1 = home w2).
  { destruct (home_run w1) as (_ & _ & _ & ->).
    destruct (home_run w2) as (_ & _ & _ & ->).
    now rewrite Hh, Hs. }
  assert (Hhealth : health w1 = health w2).
  { unfold health. now rewrite Hh. }
  repeat split; [exact Hhome|exact Hhealth| |].
  - change (get_root w1 = get_root w2). unfold get_root. now rewrite Hhome.
  - change (get_api_health w1 = get_api_health w2).
    unfold get_api_health. now rewrite Hhealth.
Qed.

Lemma same_inputs_same_response_witness :
  gethostname on_ec2 = gethostname on_ec2_exit_1
  /\ output on_ec2 instance_id_cmd = output on_ec2_exit_1 instance_id_cmd
  /\ output on_ec2 availability_zone_cmd
     = output on_ec2_exit_1 availability_zone_cmd
  /\ (home on_ec2 = home on_ec2_exit_1
      /\ health on_ec2 = health on_ec2_exit_1
      /\ app on_ec2 (lit "GET") (lit "/")
         = app on_ec2_exit_1 (lit "GET") (lit "/")
      /\ app on_ec2 (lit "GET") (lit "/api/health")
         = app on_ec2_exit_1 (lit "GET") (lit "/api/health")).
Proof.
  refine (conj eq_refl (conj eq_refl (conj eq_refl _))).
  exact (same_inputs_same_response on_ec2 on_ec2_exit_1
           eq_refl eq_refl eq_refl).
Defined.

(** C8. The hostname, the instance id and the availability zone are put
    into the fixed page as they are, each between [<code>] and [</code>]
    in its row: the page is the fixed texts and the three values, with no
    character added, dropped or replaced, whatever characters the values
    hold. *)
Theorem values_verbatim (w : world) :
  exists h i z html,
    lookup (lit "hostname") (locals w) = Return h
    /\ lookup (lit "instance_id") (locals w) = Return i
    /\ lookup (lit "availability_zone") (locals w) = Return z
    /\ home w = Return html
    /\ html
       = page_head
         ++ lit "<p><strong>Container Hostname:</strong> "
         ++ lit "<code>" ++ h ++ lit "</code>" ++ lit "</p>" ++ gap
         ++ lit "<p><strong>Instance ID:</strong> "
         ++ lit "<code>" ++ i ++ lit "</code>" ++ lit "</p>" ++ gap
         ++ lit "<p><strong>Availability Zone:</strong> "
         ++ lit "<code>" ++ z ++ lit "</code>" ++ lit "</p>"
         ++ page_tail
    /\ length html
       = length (page [] [] []) + length h + length i + length z.
Proof.
  destruct (home_run w) as (Hh & Hi & Hz & Hp).
  exists (gethostname w), (fst (shown w)), (snd (shown w)).
  exists (page (gethostname w) (fst (shown w)) (snd (shown w))).
  repeat split; [exact Hh|exact Hi|exact Hz|exact Hp| |apply page_length].
  unfold page, row, code.
  change (lit "<p><strong>Container Hostname:</strong> ")
    with (lit "<p><strong>" ++ lit "Container Hostname" ++ lit ":</strong> ").
  change (lit "<p><strong>Instance ID:</strong> ")
    with (lit "<p><strong>" ++ lit "Instance ID" ++ lit ":</strong> ").
  change (lit "<p><strong>Availability Zone:</strong> ")
    with (lit "<p><strong>" ++ lit "Availability Zone" ++ lit ":</strong> ").
  repeat rewrite <- app_assoc. reflexivity.
Qed.

Example markup_verbatim :
  home markup
  = Return (page (lit "<b>web&1</b>") (lit "<script>alert(1)</script>")
                 (lit "<i>&amp;</i>")).
Proof.
  assert (Hs : shown markup
               = (lit "<script>alert(1)</script>", lit "<i>&amp;</i>"))
    by (vm_compute; reflexivity).
  destruct (home_run markup) as (_ & _ & _ & Hp).
  rewrite Hs in Hp. exact Hp.
Qed.

(** C9. The lookup is all or nothing: when the instance id query returns
    a value and the availability zone query raises, both rows show the
    sentinel and the value is dropped; in every run either both rows show
    the two parsed values or a query raised and both show the sentinel. *)
Theorem sentinel_all_or_nothing (w : world) :
  (forall i e,
     metadata w instance_id_cmd = Return i ->
     metadata w availability_zone_cmd = Raise e ->
     lookup (lit "instance_id") (locals w) = Return sentinel
     /\ lookup (lit "availability_zone") (locals w) = Return sentinel
     /\ home w = Return (page (gethostname w) sentinel sentinel))
  /\ ((exists i z,
         metadata w instance_id_cmd = Return i
         /\ metadata w availability_zone_cmd = Return z
         /\ lookup (lit "instance_id") (locals w) = Return i
         /\ lookup (lit "availability_zone") (locals w) = Return z)
      \/ ((raises (metadata w instance_id_cmd) = true
           \/ raises (metadata w availability_zone_cmd) = true)
          /\ lookup (lit "instance_id") (locals w) = Return sentinel
          /\ lookup (lit "availability_zone") (locals w) = Return sentinel)).
Proof.
  destruct (home_run w) as (_ & Hi & Hz & Hp).
  unfold shown in Hi, Hz, Hp.
  destruct (metadata w instance_id_cmd) as [i|e];
    [destruct (metadata w availability_zone_cmd) as [z|e']|];
    cbn [fst snd] in Hi, Hz, Hp.
  - split; [intros ? ? _ H; discriminate H|].
    left. exists i, z. auto.
  - split; [auto|]. right. cbn [raises]. auto.
  - split; [intros ? ? H; discriminate H|].
    right. cbn [raises]. auto.
Qed.

Lemma sentinel_all_or_nothing_witness :
  metadata zone_unreachable instance_id_cmd
  = Return (lit "i-0123456789abcdef0")
  /\ metadata zone_unreachable availability_zone_cmd = Raise OSError
  /\ (lookup (lit "instance_id") (locals zone_unreachable) = Return sentinel
      /\ lookup (lit "availability_zone") (locals zone_unreachable)
         = Return sentinel
      /\ home zone_unreachable
         = Return (page (gethostname zone_unreachable) sentinel sentinel)).
Proof.
  refine (conj eq_refl (conj eq_refl _)).
  exact (proj1 (sentinel_all_or_nothing zone_unreachable)
           (lit "i-0123456789abcdef0") OSError eq_refl eq_refl).
Defined.

End Spec.

(** ** White space and separators in the values *)

Module StripFacts.
Import Py Lookup SplitFacts.

Unset Implicit Arguments.

Lemma lstrip_head (c : char) (s : str) :
  isspace c = false -> lstrip (c :: s) = c :: s.
Proof. intros H. cbn [lstrip]. now rewrite H. Qed.

Lemma lstrip_idem (s : str) : lstrip (lstrip s) = lstrip s.
Proof.
  induction s as [|c s IH]; [reflexivity|].
  cbn [lstrip]. destruct (isspace c) eqn:E; [exact IH|].
  now apply lstrip_head.
Qed.

Lemma lstrip_cases (s : str) :
  lstrip s = [] \/ exists c t, lstrip s = c :: t /\ isspace c = false.
Proof.
  induction s as [|c s IH]; [now left|].
  cbn [lstrip]. destruct (isspace c) eqn:E; [exact IH|].
  right. now exists c, s.
Qed.

(** What [lstrip] removes is a prefix. *)
Lemma lstrip_suffix (s : str) : exists a, s = a ++ lstrip s.
Proof.
  induction s as [|c s [a IH]]; [now exists []|].
  cbn [lstrip]. destruct (isspace c).
  - exists (c :: a). cbn [app]. now rewrite <- IH.
  - now exists [].
Qed.

Lemma lstrip_snoc (y : str) (c : char) :
  isspace c = false -> exists z, lstrip (y ++ [c]) = z ++ [c].
Proof.
  intros H. induction y as [|d y IH]; cbn [app lstrip].
  - rewrite H. now exists [].
  - destruct (isspace d); [exact IH|]. now exists (d :: y).
Qed.

Lemma lstrip_spaces (x y : str) :
  forallb isspace x = true -> lstrip (x ++ y) = lstrip y.
Proof.
  induction x as [|c x IH]; intros H; [reflexivity|].
  cbn [forallb] in H. apply andb_true_iff in H as [Hc Hx].
  cbn [app lstrip]. rewrite Hc. now apply IH.
Qed.

Lemma forallb_rev (f : char -> bool) (l : str) :
  forallb f l = true -> forallb f (rev l) = true.
Proof.
  rewrite !forallb_forall. intros H x Hx. apply H. now apply in_rev.
Qed.

Lemma rstrip_prefix (s : str) : exists b, s = rstrip s ++ b.
Proof.
  unfold rstrip. destruct (lstrip_suffix (rev s)) as [a H].
  exists (rev a).
  rewrite <- rev_app_distr, <- H. symmetry. apply rev_involutive.
Qed.

Lemma rstrip_idem (s : str) : rstrip (rstrip s) = rstrip s.
Proof. unfold rstrip. now rewrite rev_involutive, lstrip_idem. Qed.

(** Stripping the right end leaves a left end that is stripped. *)
Lemma lstrip_rstrip (u : str) :
  lstrip u = u -> lstrip (rstrip u) = rstrip u.
Proof.
  intros Hu. destruct (lstrip_cases u) as [E|(c & t & E & Hc)];
    rewrite Hu in E; subst u; [reflexivity|].
  unfold rstrip. cbn [rev].
  destruct (lstrip_snoc (rev t) c Hc) as [z ->].
  rewrite rev_app_distr. cbn [rev app]. now apply lstrip_head.
Qed.

Lemma strip_idem (s : str) : strip (strip s) = strip s.
Proof.
  unfold strip.
  rewrite (lstrip_rstrip (lstrip s) (lstrip_idem s)).
  apply rstrip_idem.
Qed.

Lemma strip_spaces (r : str) : forallb isspace r = true -> strip r = [].
Proof.
  intros H. unfold strip.
  rewrite <- (app_nil_r r), (lstrip_spaces r [] H). reflexivity.
Qed.

(** A value between two stripped ends, then white space. *)
Lemma strip_value (v ws : str) :
  isspace (hd 32%N v) = false ->
  isspace (last v 32%N) = false ->
  forallb isspace ws = true ->
  strip (v ++ ws) = v.
Proof.
  intros Hh Hl Hws.
  destruct v as [|a t]; [discriminate Hh|].
  unfold strip.
  change ((a :: t) ++ ws) with (a :: t ++ ws).
  rewrite (lstrip_head a (t ++ ws) Hh).
  change (a :: t ++ ws) with ((a :: t) ++ ws).
  unfold rstrip. rewrite rev_app_distr.
  rewrite (lstrip_spaces (rev ws) (rev (a :: t)) (forallb_rev _ _ Hws)).
  assert (Hne : a :: t <> []) by discriminate.
  rewrite (app_removelast_last 32%N Hne) at 1.
  rewrite rev_app_distr. cbn [rev app].
  rewrite (lstrip_head _ _ Hl).
  change (last (a :: t) 32%N :: rev (removelast (a :: t)))
    with (rev [last (a :: t) 32%N] ++ rev (removelast (a :: t))).
  rewrite <- rev_app_distr, rev_involutive.
  symmetry. now apply app_removelast_last.
Qed.

Lemma contains_app_l (p t b : str) :
  contains p (t ++ b) = false -> contains p t = false.
Proof.
  intros H. destruct (contains p t) eqn:E; [|reflexivity].
  apply contains_spec in E as (x & y & ->).
  assert (C : contains p ((x ++ p ++ y) ++ b) = true).
  { apply contains_spec. exists x, (y ++ b). now rewrite <- !app_assoc. }
  congruence.
Qed.

Lemma contains_app_r (p a t : str) :
  contains p (a ++ t) = false -> contains p t = false.
Proof.
  intros H. destruct (contains p t) eqn:E; [|reflexivity].
  apply contains_spec in E as (x & y & ->).
  assert (C : contains p (a ++ x ++ p ++ y) = true).
  { apply contains_spec. exists (a ++ x), y. now rewrite <- !app_assoc. }
  congruence.
Qed.

(** Stripping puts no separator into a text. *)
Lemma strip_no_sep (p s : str) :
  contains p s = false -> contains p (strip s) = false.
Proof.
  intros H. unfold strip.
  destruct (lstrip_suffix s) as [a Ha]. rewrite Ha in H.
  apply contains_app_r in H.
  destruct (rstrip_prefix (lstrip s)) as [b Hb]. rewrite Hb in H.
  now apply contains_app_l in H.
Qed.

(** White space holds no separator: a colon is no white space. *)
Lemma spaces_no_sep (r : str) :
  forallb isspace r = true -> contains sep r = false.
Proof.
  induction r as [|c r IH]; intros H; [reflexivity|].
  cbn [forallb] in H. apply andb_true_iff in H as [Hc Hr].
  cbn [contains]. rewrite (IH Hr), orb_false_r.
  change (startswith (c :: r) sep)
    with (N.eqb 58 c && startswith r [32%N]).
  destruct (N.eqb 58 c) eqn:E; [|reflexivity].
  apply N.eqb_eq in E. subst c. discriminate Hc.
Qed.

(** The field that is being read is the start of the text. *)
Lemma split_head_prefix (s : str) (f : str) (fs : list str) :
  split_from sep 0 s = f :: fs -> exists t, s = f ++ t.
Proof.
  revert f fs.
  induction s as [|c s IH]; intros f fs H.
  - cbn in H. injection H as <- _. now exists [].
  - change (split_from sep 0 (c :: s))
      with (if startswith (c :: s) sep
            then [] :: split_from sep 1 s
            else match split_from sep 0 s with
                 | f :: fs => (c :: f) :: fs
                 | [] => [[c]]
                 end) in H.
    destruct (startswith (c :: s) sep).
    + injection H as <- _. now exists (c :: s).
    + destruct (split_from sep 0 s) as [|g gs] eqn:E.
      * now apply split_from_nonempty in E.
      * injection H as <- _. destruct (IH g gs eq_refl) as [t ->].
        now exists t.
Qed.

(** No field of a split holds the separator. *)
Lemma split_fields_no_sep (s : str) :
  Forall (fun f => contains sep f = false) (split_from sep 0 s)
  /\ Forall (fun f => contains sep f = false) (split_from sep 1 s).
Proof.
  induction s as [|c s [IH0 IH1]].
  - split; repeat constructor.
  - split; [|exact IH0].
    change (split_from sep 0 (c :: s))
      with (if startswith (c :: s) sep
            then [] :: split_from sep 1 s
            else match split_from sep 0 s with
                 | f :: fs => (c :: f) :: fs
                 | [] => [[c]]
                 end).
    destruct (startswith (c :: s) sep) eqn:E.
    + constructor; [reflexivity|exact IH1].
    + destruct (split_from sep 0 s) as [|g gs] eqn:Eg.
      * now apply split_from_nonempty in Eg.
      * inversion IH0 as [|? ? Hg Hgs]; subst.
        constructor; [|exact Hgs].
        cbn [contains]. rewrite Hg, orb_false_r.
        destruct (startswith (c :: g) sep) eqn:E'; [|reflexivity].
        destruct (split_head_prefix s g gs Eg) as [t ->].
        apply (startswith_longer _ _ t) in E'.
        change ((c :: g) ++ t) with (c :: g ++ t) in E'. congruence.
Qed.

Lemma getitem_In {A} (l : list A) (i : Z) (a : A) :
  getitem l i = Return a -> In a l.
Proof.
  unfold getitem.
  destruct ((0 <=? (if (i <? 0)%Z then (Z.of_nat (length l) + i)%Z else i))
            && ((if (i <? 0)%Z then (Z.of_nat (length l) + i)%Z else i)
                <? Z.of_nat (length l)))%Z; [|discriminate].
  destruct (nth_error l _) as [b|] eqn:E; [|discriminate].
  intros H. injection H as <-. now apply nth_error_In in E.
Qed.

End StripFacts.

(** ** More properties of the lookup *)

Module Extra.
Import Py Lang OS Main Page Lookup Run Worlds Props Outputs
       SplitFacts PageFacts LookupFacts RunFacts StripFacts.

Unset Implicit Arguments.

Lemma metadata_output (w : world) (cmd : str) :
  metadata w cmd =
  match output w cmd with
  | Return out => parse out
  | Raise e => Raise e
  end.
Proof. rewrite metadata_parse. destruct (output w cmd); reflexivity. Qed.

(** What a query returns is a field of the split, stripped. *)
Lemma metadata_field (w : world) (cmd : str) (v : str) :
  metadata w cmd = Return v ->
  exists out f, output w cmd = Return out
                /\ In f (split_from sep 0 out) /\ v = strip f.
Proof.
  rewrite metadata_output.
  destruct (output w cmd) as [out|e]; [|discriminate].
  rewrite parse_split.
  destruct (getitem (split_from sep 0 out) 1) as [f|e] eqn:E; [|discriminate].
  intros H. injection H as <-.
  exists out, f. repeat split. now apply getitem_In in E.
Qed.

Lemma shown_each (P : str -> Prop) (w : world) :
  P sentinel ->
  (forall cmd v, metadata w cmd = Return v -> P v) ->
  P (fst (shown w)) /\ P (snd (shown w)).
Proof.
  intros Hs Hm. unfold shown.
  destruct (metadata w instance_id_cmd) as [i|e] eqn:Ei;
    [destruct (metadata w availability_zone_cmd) as [z|e] eqn:Ez|];
    cbn [fst snd]; split; eauto.
Qed.

(** X1. In every page the instance id and the availability zone have no
    white space at either end: stripping them again changes nothing,
    whether they were parsed or are the sentinel. *)
Theorem values_stripped (w : world) :
  exists i z,
    lookup (lit "instance_id") (locals w) = Return i
    /\ lookup (lit "availability_zone") (locals w) = Return z
    /\ strip i = i /\ strip z = z.
Proof.
  destruct (home_run w) as (_ & Hi & Hz & _).
  exists (fst (shown w)), (snd (shown w)).
  split; [exact Hi|]. split; [exact Hz|].
  apply (shown_each (fun v => strip v = v)); [reflexivity|].
  intros cmd v H. destruct (metadata_field w cmd v H) as (out & f & _ & _ & ->).
  apply strip_idem.
Qed.

(** X2. No page shows a metadata value with a colon followed by a space in
    it: a parsed value is one field of the split, and the sentinel has
    none. *)
Theorem values_without_separator (w : world) :
  exists i z,
    lookup (lit "instance_id") (locals w) = Return i
    /\ lookup (lit "availability_zone") (locals w) = Return z
    /\ contains (lit ": ") i = false /\ contains (lit ": ") z = false.
Proof.
  destruct (home_run w) as (_ & Hi & Hz & _).
  exists (fst (shown w)), (snd (shown w)).
  split; [exact Hi|]. split; [exact Hz|].
  apply (shown_each (fun v => contains (lit ": ") v = false)); [reflexivity|].
  intros cmd v H.
  destruct (metadata_field w cmd v H) as (out & f & _ & Hf & ->).
  apply strip_no_sep.
  destruct (split_fields_no_sep out) as [H0 _].
  rewrite Forall_forall in H0. exact (H0 f Hf).
Qed.

(** X3. Failures cannot be told apart: two systems with the same hostname
    in each of which some metadata query fails, in whatever way and
    whichever query, get the same page and the same response. *)
Theorem failures_look_alike (w1 w2 : world) :
  gethostname w1 = gethostname w2 ->
  unavailable w1 -> unavailable w2 ->
  home w1 = home w2
  /\ app w1 (lit "GET") (lit "/") = app w2 (lit "GET") (lit "/").
Proof.
  intros Hh H1 H2.
  assert (Hhome : home w1 = home w2).
  { destruct (home_run w1) as (_ & _ & _ & ->).
    destruct (home_run w2) as (_ & _ & _ & ->).
    now rewrite (Spec.unavailable_shown w1 H1),
                (Spec.unavailable_shown w2 H2), Hh. }
  split; [exact Hhome|].
  change (get_root w1 = get_root w2). unfold get_root. now rewrite Hhome.
Qed.

Lemma failures_look_alike_witness :
  gethostname absent = gethostname zone_unreachable
  /\ unavailable absent
  /\ unavailable zone_unreachable
  /\ (home absent = home zone_unreachable
      /\ app absent (lit "GET") (lit "/")
         = app zone_unreachable (lit "GET") (lit "/")).
Proof.
  assert (H1 : unavailable absent).
  { left. eapply no_separator; reflexivity. }
  assert (H2 : unavailable zone_unreachable).
  { right. eapply popen_raises. reflexivity. }
  refine (conj eq_refl (conj H1 (conj H2 _))).
  exact (failures_look_alike absent zone_unreachable eq_refl H1 H2).
Defined.

(** X4. A line with a key and the separator and nothing but white space
    after them is no failure: the query returns the empty string. *)
Theorem blank_value_is_empty (w : world) (cmd k r : str) :
  output w cmd = Return (k ++ sep ++ r) ->
  contains sep k = false ->
  forallb isspace r = true ->
  metadata w cmd = Return [].
Proof.
  intros Ho Hk Hr.
  rewrite metadata_output, Ho.
  rewrite (parse_key_value k r Hk (spaces_no_sep r Hr)).
  now rewrite (strip_spaces r Hr).
Qed.

Lemma blank_value_is_empty_witness :
  output blank_value instance_id_cmd
  = Return (lit "instance-id" ++ sep ++ nl)
  /\ contains sep (lit "instance-id") = false
  /\ forallb isspace nl = true
  /\ metadata blank_value instance_id_cmd = Return [].
Proof.
  refine (conj eq_refl (conj eq_refl (conj eq_refl _))).
  exact (blank_value_is_empty blank_value instance_id_cmd
           (lit "instance-id") nl eq_refl eq_refl eq_refl).
Defined.

(** X5. The exceptions of one query: it raises what [os.popen] raises,
    what [read] raises, or an [IndexError] when the output has no
    separator, and nothing else. *)
Theorem metadata_raises (w : world) (cmd : str) (e : exn) :
  metadata w cmd = Raise e <->
  popen w cmd = Raise e
  \/ (exists p, popen w cmd = Return p /\ read p = Raise e)
  \/ (exists p out, popen w cmd = Return p /\ read p = Return out
                    /\ contains sep out = false /\ e = IndexError).
Proof.
  rewrite metadata_output. unfold output.
  destruct (popen w cmd) as [p|e0]; cbn [bind].
  - destruct (read p) as [out|e1] eqn:Hr.
    + destruct (contains sep out) eqn:Hs.
      * destruct (parse_sep out Hs) as [v ->]. split.
        -- discriminate.
        -- intros [H|[(p' & H & H')|(p' & out' & H & H' & Hc & _)]].
           ++ discriminate H.
           ++ injection H as <-. congruence.
           ++ injection H as <-. congruence.
      * rewrite (parse_no_sep out Hs). split.
        -- intros H. injection H as <-. right. right. now exists p, out.
        -- intros [H|[(p' & H & H')|(p' & out' & H & H' & Hc & ->)]];
             [discriminate H| |reflexivity].
           injection H as <-. congruence.
    + split.
      * intros H. injection H as <-. right. left. now exists p.
      * intros [H|[(p' & H & H')|(p' & out' & H & H' & _)]].
        -- discriminate H.
        -- injection H as <-. congruence.
        -- injection H as <-. congruence.
  - split.
    + intros H. injection H as <-. now left.
    + intros [H|[(p' & H & _)|(p' & out' & H & _)]];
        [|discriminate H|discriminate H].
      injection H as <-. reflexivity.
Qed.

(** X6. A value with no white space at its ends is returned as printed:
    from a line of a key, the separator, the value and trailing white
    space such as the line break, with no further separator, the query
    returns the value itself, white space inside it included. *)
Theorem value_as_printed (w : world) (cmd k v ws : str) :
  output w cmd = Return (k ++ sep ++ v ++ ws) ->
  contains sep k = false ->
  contains sep (v ++ ws) = false ->
  isspace (hd 32%N v) = false ->
  isspace (last v 32%N) = false ->
  forallb isspace ws = true ->
  metadata w cmd = Return v.
Proof.
  intros Ho Hk Hv Hh Hl Hws.
  rewrite metadata_output, Ho.
  rewrite (parse_key_value k (v ++ ws) Hk Hv).
  now rewrite (strip_value v ws Hh Hl Hws).
Qed.

Lemma value_as_printed_witness :
  output on_ec2 availability_zone_cmd
  = Return (lit "availability-zone" ++ sep ++ lit "us-east-1a" ++ nl)
  /\ contains sep (lit "availability-zone") = false
  /\ contains sep (lit "us-east-1a" ++ nl) = false
  /\ isspace (hd 32%N (lit "us-east-1a")) = false
  /\ isspace (last (lit "us-east-1a") 32%N) = false
  /\ forallb isspace nl = true
  /\ metadata on_ec2 availability_zone_cmd = Return (lit "us-east-1a").
Proof.
  refine (conj eq_refl (conj eq_refl (conj eq_refl (conj eq_refl
            (conj eq_refl (conj eq_refl _)))))).
  exact (value_as_printed on_ec2 availability_zone_cmd
           (lit "availability-zone") (lit "us-east-1a") nl
           eq_refl eq_refl eq_refl eq_refl eq_refl eq_refl).
Defined.

End Extra.
